(** * mysql-cli-plugin: binding discovery stub and migration workflow

    A shallow embedding of the Go sources

      - [mysql-tools/plugin/plugin.go]   (package [plugin]:  [Migrate],
        [bindingFinder.FindBindings]),
      - the [migrate] package            ([Migrator] and its methods),
      - [mysql-tools/find-bindings/finder_test.go] (the fixture catalog and
        the fake catalog client it configures).

    Go code talks to its collaborators through interfaces.  A method that
    calls an interface is embedded as an interaction program: a tree whose
    nodes are the interface calls, in program order, and whose leaves are
    the returned values.  An implementation of the interface is a handler
    that answers every call from a state of its own; running a program
    against a handler yields the returned value, the sequence of calls that
    were issued together with their answers, and the final state of the
    implementation.

    A Go [error] is represented by its message; [nil] is [None].  Log
    output ([log.Print], [log.Printf]) has no influence on calls or
    results and is left out. *)

From stdpp Require Import base strings list gmap.

Open Scope string_scope.

(** ** Go values *)

Definition error : Type := string.

(** The characters that cannot be typed inside a literal. *)
Definition dquote : string := String (Ascii.ascii_of_nat 34) EmptyString.
Definition newline : string := String (Ascii.ascii_of_nat 10) EmptyString.

(** [strings.Join]. *)
Fixpoint Join (elems : list string) (sep : string) : string :=
  match elems with
  | [] => EmptyString
  | [x] => x
  | x :: rest => x +:+ sep +:+ Join rest sep
  end.

(** [fmt.Sprintf("%s", xs)] for [xs : []string]: the elements separated by
    one space, between square brackets. *)
Definition sprint_strings (xs : list string) : string :=
  "[" +:+ Join xs " " +:+ "]".

(** ** Interaction programs *)

Section Interaction.
Context {call : Type} {ret : call -> Type}.

Inductive prog (R : Type) : Type :=
| Ret (r : R)
| Call (c : call) (k : ret c -> prog R).
Global Arguments Ret {R} r.
Global Arguments Call {R} c k.

Fixpoint bind {A B : Type} (p : prog A) (f : A -> prog B) : prog B :=
  match p with
  | Ret a => f a
  | Call c k => Call c (fun x => bind (k x) f)
  end.

(** One interface call and nothing else. *)
Definition invoke (c : call) : prog (ret c) := Call c Ret.

(** [defer d body]: Go's [defer].  [body] is the rest of the function
    after the [defer] statement; whatever way it returns, [d] runs next
    and the function returns what [body] returned. *)
Definition defer {A R : Type} (d : prog A) (body : prog R) : prog R :=
  bind body (fun r => bind d (fun _ => Ret r)).

(** An implementation of the interface. *)
Definition handler (St : Type) : Type := forall c : call, St -> ret c * St.

(** A call with the answer it got. *)
Record event : Type := Ev { ev_call : call; ev_ret : ret ev_call }.

Record outcome (St R : Type) : Type :=
  Outcome { result : R; trace : list event; final : St }.
Global Arguments Outcome {St R} result trace final.
Global Arguments result {St R} o.
Global Arguments trace {St R} o.
Global Arguments final {St R} o.

Fixpoint run {St R : Type} (h : handler St) (p : prog R) (s : St)
  : outcome St R :=
  match p with
  | Ret r => Outcome r [] s
  | Call c k =>
      let a := h c s in
      let o := run h (k (fst a)) (snd a) in
      Outcome (result o) (Ev c (fst a) :: trace o) (final o)
  end.

(** The calls of a trace, without their answers. *)
Definition calls (tr : list event) : list call := map ev_call tr.
End Interaction.

Arguments prog {call} ret R.
Arguments handler {call} ret St.
Arguments event {call} ret.

(** [prog ret] is a monad; stdpp's [x ← p; q] and [p;; q] sequence
    programs. *)
#[global] Instance prog_ret {call} {ret : call -> Type} : MRet (prog ret) :=
  fun _ r => Ret r.
#[global] Instance prog_bind {call} {ret : call -> Type} : MBind (prog ret) :=
  fun _ _ f p => bind p f.

(** A program over one interface, run where a larger interface is at
    hand: [f] embeds the calls, [g] reads the answers back. *)
Fixpoint translate {call call' : Type} {ret : call -> Type}
  {ret' : call' -> Type} (f : call -> call')
  (g : forall c, ret' (f c) -> ret c) {R : Type} (p : prog ret R)
  : prog ret' R :=
  match p with
  | Ret r => Ret r
  | Call c k => Call (f c) (fun x => translate f g (k (g c x)))
  end.

(** The implementation that a larger one induces on the embedded
    interface. *)
Definition restrict {call call' : Type} {ret : call -> Type}
  {ret' : call' -> Type} {St : Type} (f : call -> call')
  (g : forall c, ret' (f c) -> ret c) (h : handler ret' St)
  : handler ret St :=
  fun c s => (g c (h (f c) s).1, (h (f c) s).2).

(** ** [net/url] *)

Module url.
(** [url.Values] is [map[string][]string]. *)
Abbreviation Values := (gmap string (list string)).

(** [Values.Set]: the key is given the single value, replacing any
    values it had. *)
Definition Values_Set (key value : string) (v : Values) : Values :=
  <[key := [value]]> v.
End url.

(** ** [go-cfclient]: the catalog entities, with the fields the fixtures
    use.  The [SpaceResource] and [OrgResource] wrappers hold an [Entity]
    only and are folded into their parent. *)

Module cfclient.
Record Service := { Service_Label : string; Service_Guid : string }.
Record ServicePlan :=
  { Plan_Name : string; Plan_Guid : string; Plan_ServiceGuid : string }.
Record ServiceInstance :=
  { Instance_Name : string; Instance_Guid : string;
    Instance_ServicePlanGuid : string; Instance_SpaceGuid : string }.
Record ServiceBinding :=
  { Binding_Guid : string; Binding_AppGuid : string;
    Binding_ServiceInstanceGuid : string }.
Record ServiceKey := { Key_Name : string }.
Record Org := { Org_Name : string }.
Record Space :=
  { Space_Name : string; Space_OrganizationGuid : string; Space_OrgData : Org }.
Record App := { App_Guid : string; App_Name : string; App_SpaceData : Space }.

(** Go's zero values. *)
Definition zero_Org : Org := {| Org_Name := EmptyString |}.
Definition zero_Space : Space :=
  {| Space_Name := EmptyString; Space_OrganizationGuid := EmptyString;
     Space_OrgData := zero_Org |}.
Definition zero_App : App :=
  {| App_Guid := EmptyString; App_Name := EmptyString;
     App_SpaceData := zero_Space |}.

(** The catalog client.  [plugin.go] declares [CFClient] with
    [ListServicesByQuery] alone; the fake client that
    [finder_test.go] configures answers all eight operations. *)
Inductive call : Type :=
| ListServicesByQuery (q : url.Values)
| ListServicePlansByQuery (q : url.Values)
| ListServiceInstancesByQuery (q : url.Values)
| ListServiceBindingsByQuery (q : url.Values)
| ListServiceKeysByQuery (q : url.Values)
| GetAppByGuid (guid : string)
| GetSpaceByGuid (guid : string)
| GetOrgByGuid (guid : string).

Definition ret (c : call) : Type :=
  match c with
  | ListServicesByQuery _ => list Service * option error
  | ListServicePlansByQuery _ => list ServicePlan * option error
  | ListServiceInstancesByQuery _ => list ServiceInstance * option error
  | ListServiceBindingsByQuery _ => list ServiceBinding * option error
  | ListServiceKeysByQuery _ => list ServiceKey * option error
  | GetAppByGuid _ => App * option error
  | GetSpaceByGuid _ => Space * option error
  | GetOrgByGuid _ => Org * option error
  end%type.

(** The query of a filtered-list call; [None] for a point lookup. *)
Definition list_query (c : call) : option url.Values :=
  match c with
  | ListServicesByQuery q | ListServicePlansByQuery q
  | ListServiceInstancesByQuery q | ListServiceBindingsByQuery q
  | ListServiceKeysByQuery q => Some q
  | GetAppByGuid _ | GetSpaceByGuid _ | GetOrgByGuid _ => None
  end.

(** A query that is one equality predicate on one field: the single
    parameter [q] with the single value [field:value]. *)
Definition single_predicate (q : url.Values) : Prop :=
  exists field value : string, q = {[ "q" := [field +:+ ":" +:+ value] ]}.

Definition carries_single_predicate (c : call) : Prop :=
  match list_query c with
  | Some q => single_predicate q
  | None => True
  end.

(** The error a call answered with, if any. *)
Definition failure (ev : event ret) : option error :=
  match ev with
  | Ev (ListServicesByQuery _) a => a.2
  | Ev (ListServicePlansByQuery _) a => a.2
  | Ev (ListServiceInstancesByQuery _) a => a.2
  | Ev (ListServiceBindingsByQuery _) a => a.2
  | Ev (ListServiceKeysByQuery _) a => a.2
  | Ev (GetAppByGuid _) a => a.2
  | Ev (GetSpaceByGuid _) a => a.2
  | Ev (GetOrgByGuid _) a => a.2
  end.
End cfclient.

(** ** The fake catalog client ([findbindingsfakes.FakeCFClient])

    A counterfeiter fake answers the [i]-th call of a method with what
    [...ReturnsOnCall(i, ...)] configured, else with what [...Returns(...)]
    configured, else with zero values; it logs the arguments of every
    call. *)

Module findbindingsfakes.
Import cfclient.

Definition method (c : call) : nat :=
  match c with
  | ListServicesByQuery _ => 0
  | ListServicePlansByQuery _ => 1
  | ListServiceInstancesByQuery _ => 2
  | ListServiceBindingsByQuery _ => 3
  | ListServiceKeysByQuery _ => 4
  | GetAppByGuid _ => 5
  | GetSpaceByGuid _ => 6
  | GetOrgByGuid _ => 7
  end.

(** The configured answers: by call and by the number of earlier calls of
    the same method. *)
Definition FakeCFClient : Type := forall c : call, nat -> ret c.

(** [...CallCount()] of the method of [c], on the log of calls so far. *)
Definition CallCount (c : call) (log : list call) : nat :=
  length (filter (fun c' => method c' = method c) log).

Definition serve (fake : FakeCFClient) : handler ret (list call) :=
  fun c log => (fake c (CallCount c log), (log ++ [c])%list).

(** The fixture of [finder_test.go] ([BeforeEach]). *)
Definition service : Service :=
  {| Service_Label := "p.mysql"; Service_Guid := "service-guid" |}.

Definition servicePlans : list ServicePlan :=
  [ {| Plan_Name := "small"; Plan_Guid := "small-guid";
       Plan_ServiceGuid := "service-guid" |};
    {| Plan_Name := "medium"; Plan_Guid := "medium-guid";
       Plan_ServiceGuid := "service-guid" |};
    {| Plan_Name := "large"; Plan_Guid := "large-guid";
       Plan_ServiceGuid := "service-guid" |} ].

Definition smallServiceInstances : list ServiceInstance :=
  [ {| Instance_Name := "instance1"; Instance_Guid := "instance1-guid";
       Instance_ServicePlanGuid := "small-guid";
       Instance_SpaceGuid := "space1-guid" |};
    {| Instance_Name := "instance2"; Instance_Guid := "instance2-guid";
       Instance_ServicePlanGuid := "small-guid";
       Instance_SpaceGuid := "space2-guid" |} ].

Definition mediumServiceInstances : list ServiceInstance :=
  [ {| Instance_Name := "instance3"; Instance_Guid := "instance3-guid";
       Instance_ServicePlanGuid := "medium-guid";
       Instance_SpaceGuid := "space3-guid" |} ].

Definition smallServiceBindings : list ServiceBinding :=
  [ {| Binding_Guid := "binding1-guid"; Binding_AppGuid := "app1-guid";
       Binding_ServiceInstanceGuid := "instance1-guid" |} ].

Definition mediumServiceBindings : list ServiceBinding :=
  [ {| Binding_Guid := "binding3-guid"; Binding_AppGuid := "app3-guid";
       Binding_ServiceInstanceGuid := "instance3-guid" |} ].

Definition smallServiceKey : list ServiceKey := [ {| Key_Name := "key1" |} ].
Definition mediumServiceKey : list ServiceKey := [ {| Key_Name := "key3" |} ].

Definition smallApp : App :=
  {| App_Guid := "app1-guid"; App_Name := "app1";
     App_SpaceData :=
       {| Space_Name := "app1-space";
          Space_OrganizationGuid := "app1-org-guid";
          Space_OrgData := {| Org_Name := "app1-org" |} |} |}.

Definition mediumApp : App :=
  {| App_Guid := "app3-guid"; App_Name := "app3";
     App_SpaceData :=
       {| Space_Name := "app3-space";
          Space_OrganizationGuid := "app3-org-guid";
          Space_OrgData := {| Org_Name := "app3-org" |} |} |}.

Definition fixture : FakeCFClient :=
  fun c i =>
    match c with
    | ListServicesByQuery _ => ([service], None)
    | ListServicePlansByQuery _ => (servicePlans, None)
    | ListServiceInstancesByQuery _ =>
        match i with
        | 0 => (smallServiceInstances, None)
        | 1 => (mediumServiceInstances, None)
        | _ => ([], None)
        end
    | ListServiceBindingsByQuery _ =>
        match i with
        | 0 => (smallServiceBindings, None)
        | 2 => (mediumServiceBindings, None)
        | _ => ([], None)
        end
    | ListServiceKeysByQuery _ =>
        match i with
        | 0 => (smallServiceKey, None)
        | 2 => (mediumServiceKey, None)
        | _ => ([], None)
        end
    | GetAppByGuid _ =>
        match i with
        | 0 => (smallApp, None)
        | 1 => (mediumApp, None)
        | _ => (zero_App, None)
        end
    | GetSpaceByGuid _ =>
        match i with
        | 0 => (App_SpaceData smallApp, None)
        | 1 => (App_SpaceData mediumApp, None)
        | _ => (zero_Space, None)
        end
    | GetOrgByGuid _ =>
        match i with
        | 0 => (Space_OrgData (App_SpaceData smallApp), None)
        | 1 => (Space_OrgData (App_SpaceData mediumApp), None)
        | _ => (zero_Org, None)
        end
    end.

(** [expectedBindings] of the test: [find_bindings.Binding] values. *)
Record Binding :=
  { Name : string; ServiceInstanceName : string; ServiceInstanceGuid : string;
    OrgName : string; SpaceName : string; Type_ : string }.

Definition expectedBindings : list Binding :=
  [ {| Name := "app1"; ServiceInstanceName := "instance1";
       ServiceInstanceGuid := "instance1-guid"; OrgName := "app1-org";
       SpaceName := "app1-space"; Type_ := "AppBinding" |};
    {| Name := "key1"; ServiceInstanceName := "instance1";
       ServiceInstanceGuid := "instance1-guid"; OrgName := "app1-org";
       SpaceName := "app1-space"; Type_ := "ServiceKeyBinding" |};
    {| Name := "app3"; ServiceInstanceName := "instance3";
       ServiceInstanceGuid := "instance3-guid"; OrgName := "app3-org";
       SpaceName := "app3-space"; Type_ := "AppBinding" |};
    {| Name := "key3"; ServiceInstanceName := "instance3";
       ServiceInstanceGuid := "instance3-guid"; OrgName := "app3-org";
       SpaceName := "app3-space"; Type_ := "ServiceKeyBinding" |} ].

(** A catalog with no service of any label. *)
Definition no_service : FakeCFClient :=
  fun c _ =>
    match c with
    | ListServicesByQuery _ => ([], None)
    | ListServicePlansByQuery _ => ([], None)
    | ListServiceInstancesByQuery _ => ([], None)
    | ListServiceBindingsByQuery _ => ([], None)
    | ListServiceKeysByQuery _ => ([], None)
    | GetAppByGuid _ => (zero_App, None)
    | GetSpaceByGuid _ => (zero_Space, None)
    | GetOrgByGuid _ => (zero_Org, None)
    end.

(** A catalog whose service list call fails. *)
Definition outage : FakeCFClient :=
  fun c i =>
    match c with
    | ListServicesByQuery _ => ([], Some "catalog unavailable")
    | c' => fixture c' i
    end.
End findbindingsfakes.

(** ** Package [plugin] ([mysql-tools/plugin/plugin.go]) *)

Module plugin.

Definition migrateUsage : string :=
  "cf mysql-tools migrate [-h] [--no-cleanup] <source-service-instance> <p.mysql-plan-type>".

(** *** The [Migrator] interface *)

Inductive Migrator : Type :=
| CheckServiceExists (donorInstanceName : string)
| CreateAndConfigureServiceInstance (planType serviceName : string)
| MigrateData (donorInstanceName recipientInstanceName : string) (cleanup : bool)
| RenameServiceInstances (donorInstanceName recipientInstanceName : string)
| CleanupOnError (recipientInstanceName : string).

(** Every method returns an [error]. *)
Definition Migrator_ret (c : Migrator) : Type := option error.

Definition is_CleanupOnError (c : Migrator) : bool :=
  match c with CleanupOnError _ => true | _ => false end.

(** *** [Migrate] *)

(** The options struct that [Migrate] declares. *)
Record opts_t :=
  { Source : string; PlanName : string; NoCleanup : bool }.

(** [RECIPIENT_PRODUCT_NAME] is read from the environment for a log line
    only and does not appear below. *)
Section Migrate.
(** [parser.ParseArgs] of go-flags for the options struct above: the
    filled struct, the arguments left over, and the parse error. *)
Variable ParseArgs : list string -> opts_t * list string * option error.

Definition Migrate (args : list string) : prog Migrator_ret (option error) :=
  let '(opts, args, err) := ParseArgs args in
  if bool_decide (err <> None \/ length args <> 0) then
    let msg := "unexpected arguments: " +:+ Join args " " in
    let msg := match err with Some e => e | None => msg end in
    mret (Some ("Usage: " +:+ migrateUsage +:+ newline +:+ newline +:+ msg))
  else
    let donorInstanceName := Source opts in
    let tempRecipientInstanceName := donorInstanceName +:+ "-new" in
    let destPlan := PlanName opts in
    let cleanup := negb (NoCleanup opts) in
    err ← invoke (CheckServiceExists donorInstanceName);
    match err with
    | Some e => mret (Some e)
    | None =>
        err ← invoke (CreateAndConfigureServiceInstance
                        destPlan tempRecipientInstanceName);
        match err with
        | Some e =>
            if cleanup then
              invoke (CleanupOnError tempRecipientInstanceName);;
              mret (Some ("error creating service instance: " +:+ e
                          +:+ ". Attempting to clean up service "
                          +:+ tempRecipientInstanceName))
            else
              mret (Some ("error creating service instance: " +:+ e
                          +:+ ". Not cleaning up service "
                          +:+ tempRecipientInstanceName))
        | None =>
            err ← invoke (MigrateData donorInstanceName
                            tempRecipientInstanceName cleanup);
            match err with
            | Some e =>
                if cleanup then
                  invoke (CleanupOnError tempRecipientInstanceName);;
                  mret (Some ("error migrating data: " +:+ e
                              +:+ ". Attempting to clean up service "
                              +:+ tempRecipientInstanceName))
                else
                  mret (Some ("error migrating data: " +:+ e
                              +:+ ". Not cleaning up service "
                              +:+ tempRecipientInstanceName))
            | None =>
                invoke (RenameServiceInstances donorInstanceName
                          tempRecipientInstanceName)
            end
        end
    end.
End Migrate.

(** The step of [Migrate] that fails, on a migrator [h] in state [s]: the
    donor instance exists, and either the recipient instance cannot be
    created, or it can and the data migration fails.  [what] names the
    step, [e] is the error of the migrator and [s'] its state after the
    failing call. *)
Inductive step_fails {St : Type} (h : handler Migrator_ret St) (s : St)
  (opts : opts_t) : string -> error -> St -> Prop :=
| fails_creating s1 s2 e :
    h (CheckServiceExists (Source opts)) s = (None, s1) ->
    h (CreateAndConfigureServiceInstance
         (PlanName opts) (Source opts +:+ "-new")) s1 = (Some e, s2) ->
    step_fails h s opts "creating service instance" e s2
| fails_migrating s1 s2 s3 e :
    h (CheckServiceExists (Source opts)) s = (None, s1) ->
    h (CreateAndConfigureServiceInstance
         (PlanName opts) (Source opts +:+ "-new")) s1 = (None, s2) ->
    h (MigrateData (Source opts) (Source opts +:+ "-new")
         (negb (NoCleanup opts))) s2 = (Some e, s3) ->
    step_fails h s opts "migrating data" e s3.

(** A reading of go-flags' [ParseArgs] for [opts_t] with [flags.None],
    on arguments of ASCII characters.  An argument is an option when it
    is a dash followed by something other than a dash, or two dashes
    followed by something other than a dash; every other argument, also
    a lone [-], [--] or [---x], is positional.  The only option known is
    [--no-cleanup], which takes no argument; the first option in error
    stops the parse.  The first two positional arguments fill [Source]
    and [PlanName], further ones are left over; both are required.  On
    an error the list returned is the argument last read and those not
    yet read; [Migrate] does not look at it then. *)
Definition is_dash (c : Ascii.ascii) : bool :=
  Ascii.eqb c (Ascii.ascii_of_nat 45).

Definition is_flag (a : string) : bool :=
  match a with
  | String c0 (String c1 rest) =>
      is_dash c0
      && (negb (is_dash c1)
          || match rest with
             | String c2 _ => negb (is_dash c2)
             | EmptyString => false
             end)
  | _ => false
  end.

(** The name of a long option, which ends before the first [=], and
    whether an argument follows it. *)
Fixpoint split_option (option : string) : string * bool :=
  match option with
  | EmptyString => (EmptyString, false)
  | String c rest =>
      if Ascii.eqb c (Ascii.ascii_of_nat 61) then (EmptyString, true)
      else let '(name, arg) := split_option rest in (String c name, arg)
  end.

(** What an option argument does: [None] when it sets [NoCleanup], else
    the error. *)
Definition parse_option (a : string) : option error :=
  match a with
  | String _ (String c1 rest) =>
      if is_dash c1 then
        let '(name, arg) := split_option rest in
        if String.eqb name "no-cleanup" then
          if arg
          then Some "bool flag `--no-cleanup' cannot have an argument"
          else None
        else Some ("unknown flag `" +:+ name +:+ "'")
      else Some ("unknown flag `" +:+ String c1 EmptyString +:+ "'")
  | _ => None
  end.

(** The flag, the positional arguments read, and on an error the
    arguments from the one in error on. *)
Fixpoint scan_args (args : list string) (no_cleanup : bool)
  (positional : list string)
  : bool * list string * list string * option error :=
  match args with
  | [] => (no_cleanup, positional, [], None)
  | a :: rest =>
      if is_flag a then
        match parse_option a with
        | None => scan_args rest true positional
        | Some e => (no_cleanup, positional, a :: rest, Some e)
        end
      else scan_args rest no_cleanup (positional ++ [a])%list
  end.

Definition ParseArgs (args : list string)
  : opts_t * list string * option error :=
  let '(nc, pos, unread, err) := scan_args args false [] in
  let opts :=
    {| Source := default EmptyString (pos !! 0);
       PlanName := default EmptyString (pos !! 1);
       NoCleanup := nc |} in
  match err with
  | Some e => (opts, unread, Some e)
  | None =>
      match pos with
      | [] =>
          (opts, [default EmptyString (last args)],
           Some ("the required arguments `<source-service-instance>` and "
                 +:+ "`<p.mysql-plan-type>` were not provided"))
      | [_] =>
          (opts, [default EmptyString (last args)],
           Some "the required argument `<p.mysql-plan-type>` was not provided")
      | _ => (opts, drop 2 pos, None)
      end
  end.

(** What a migrator call answered. *)
Definition answer (ev : event Migrator_ret) : option error := ev_ret ev.

(** The calls [Migrate] has to choose from, in the order it makes them,
    for donor [d], plan [p] and the flag [nc] of [--no-cleanup]. *)
Definition script (d p : string) (nc : bool) : list Migrator :=
  [ CheckServiceExists d;
    CreateAndConfigureServiceInstance p (d +:+ "-new");
    MigrateData d (d +:+ "-new") (negb nc);
    RenameServiceInstances d (d +:+ "-new") ].

(** *** [MySQLPlugin.Run] *)

Definition usage : string :=
  migrateUsage +:+ newline +:+ "   cf mysql-tools version".

Record MySQLPlugin := { err : option error }.

(** How a call of [Run] ends: it returns, [os.Exit] ends the process, or
    indexing the arguments panics. *)
Inductive ended : Type :=
| Returned (c : MySQLPlugin)
| Exited (code : nat)
| Panicked.

(** What [Run] does to the outside: the text that [Run] itself writes
    with [fmt] to the standard error and output streams, and the calls of
    [Migrate] to the migrator that [migrate.NewMigrator] built from the
    CLI connection.  The lines that [Migrate] hands to the standard
    logger, which also end on the standard error, are left out here as
    they are in [Migrate]: a trace of [Run] is complete for migrator
    calls, not for the standard error. *)
Inductive Run_call : Type :=
| Stderr (text : string)
| Stdout (text : string)
| OnMigrator (c : Migrator).

Definition Run_ret (c : Run_call) : Type :=
  match c with
  | OnMigrator m => Migrator_ret m
  | _ => unit
  end.

Definition on_migrator (c : Run_call) : option Migrator :=
  match c with
  | OnMigrator m => Some m
  | _ => None
  end.

(** The migrator as [Migrate] sees it inside [Run]. *)
Definition migrator_of {St : Type} (h : handler Run_ret St)
  : handler Migrator_ret St :=
  restrict (ret := Migrator_ret) OnMigrator (fun _ x => x) h.

Section Run.
Variable ParseArgs : list string -> opts_t * list string * option error.
(** The package variables [version] and [gitSHA], set when linking. *)
Variables version gitSHA : string.

Definition Run (c : MySQLPlugin) (args : list string) : prog Run_ret ended :=
  match args with
  | [] => mret Panicked
  | arg0 :: _ =>
      if String.eqb arg0 "CLI-MESSAGE-UNINSTALL" then mret (Returned c)
      else if bool_decide (length args < 2) then
        invoke (Stderr ("NAME:" +:+ newline
                        +:+ "   mysql-tools - Plugin to migrate mysql instances"
                        +:+ newline +:+ newline
                        +:+ "USAGE:" +:+ newline
                        +:+ "   cf mysql-tools migrate [-h] [--no-cleanup] <source-service-instance> <p.mysql-plan-type>"
                        +:+ newline
                        +:+ "   cf mysql-tools version" +:+ newline));;
        mret (Exited 1)
      else
        let command := default EmptyString (args !! 1) in
        if String.eqb command "version" then
          invoke (Stdout (version +:+ " (" +:+ gitSHA +:+ ")" +:+ newline));;
          mret (Exited 0)
        else if String.eqb command "migrate" then
          e ← translate (ret := Migrator_ret) (ret' := Run_ret)
                OnMigrator (fun _ x => x)
                (Migrate ParseArgs (drop 2 args));
          mret (Returned {| err := e |})
        else
          mret (Returned
                  {| err := Some ("unknown command '" +:+ command +:+ "'") |})
  end.
End Run.

(** *** [bindingFinder] *)

Record ServiceBinding :=
  { App : string; Key : string; Org : string; Space : string }.

Record bindingFinder (St : Type) :=
  { cfClient : handler cfclient.ret St }.
Arguments cfClient {St} b.

Definition NewBindingFinder {St : Type} (cfClient : handler cfclient.ret St)
  : bindingFinder St :=
  {| cfClient := cfClient |}.

(** The body of [FindBindings]: the answer of the list call is bound and
    never read, its error is dropped by the blank identifier. *)
Definition FindBindings_body (serviceLabel : string)
  : prog cfclient.ret (list ServiceBinding * option error) :=
  let u : url.Values := ∅ in
  let u := url.Values_Set "q" ("label:" +:+ serviceLabel) u in
  '(services, _) ← invoke (cfclient.ListServicesByQuery u);
  mret ([ {| App := "app"; Key := EmptyString;
             Org := "org-name"; Space := "space-name" |} ], None).

(** [bf.FindBindings(serviceLabel)], the client being in state [s]. *)
Definition FindBindings {St : Type} (bf : bindingFinder St)
  (serviceLabel : string) (s : St)
  : outcome St (list ServiceBinding * option error) :=
  run (cfClient bf) (FindBindings_body serviceLabel) s.

End plugin.

(** ** Package [migrate] *)

Module migrate.

(** [fmt]'s [%q] ([strconv.Quote]) on a string of ASCII characters: the
    string between double quotes, with the double quote, the backslash
    and the control characters escaped.  Bytes from 128 on are copied,
    where Go escapes invalid UTF-8 and runes that do not print; the
    function is exact on ASCII only, and only the text of error messages
    goes through it. *)
Definition hex_digit (n : nat) : string :=
  String (Ascii.ascii_of_nat (if decide (n < 10) then 48 + n else 87 + n))
    EmptyString.

Definition quote_char (c : Ascii.ascii) : string :=
  let n := Ascii.nat_of_ascii c in
  if decide (n = 34) then "\" +:+ dquote
  else if decide (n = 92) then "\\"
  else if decide (n = 7) then "\a"
  else if decide (n = 8) then "\b"
  else if decide (n = 12) then "\f"
  else if decide (n = 10) then "\n"
  else if decide (n = 13) then "\r"
  else if decide (n = 9) then "\t"
  else if decide (n = 11) then "\v"
  else if decide (n < 32 \/ n = 127)
       then "\x" +:+ hex_digit (n / 16) +:+ hex_digit (n mod 16)
  else String c EmptyString.

Fixpoint quote_chars (s : string) : string :=
  match s with
  | EmptyString => EmptyString
  | String c rest => quote_char c +:+ quote_chars rest
  end.

Definition Quote (s : string) : string := dquote +:+ quote_chars s +:+ dquote.

(** What a [Migrator] calls: its [client], its [unpacker], and the
    packages [os], [io/ioutil], [uuid] and [time]. *)
Inductive call : Type :=
| ServiceExists (serviceName : string)
| CreateServiceInstance (planType instanceName : string)
| GetHostnames (instanceName : string)
| UpdateServiceConfig (instanceName jsonParams : string)
| BindService (appName serviceName : string)
| DeleteApp (appName : string)
| DeleteServiceInstance (instanceName : string)
| DumpLogs (appName : string)
| PushApp (path appName : string)
| RenameService (oldName newName : string)
| RunTask (appName command : string)
| StartApp (appName : string)
| Unpack (destDir : string)
| os_TempDir
| ioutil_TempDir (dir pfx : string)
| os_RemoveAll (path : string)
| uuid_New
| time_Sleep (seconds : nat).

Definition ret (c : call) : Type :=
  match c with
  | ServiceExists _ => bool
  | GetHostnames _ => list string * option error
  | DumpLogs _ => unit
  | os_TempDir => string
  | ioutil_TempDir _ _ => string * option error
  | uuid_New => string
  | time_Sleep _ => unit
  | CreateServiceInstance _ _ | UpdateServiceConfig _ _ | BindService _ _
  | DeleteApp _ | DeleteServiceInstance _ | PushApp _ _ | RenameService _ _
  | RunTask _ _ | StartApp _ | Unpack _ | os_RemoveAll _ => option error
  end%type.

(** The app a successful [PushApp] pushed. *)
Definition pushed (ev : event ret) : option string :=
  match ev with
  | Ev (PushApp _ appName) None => Some appName
  | _ => None
  end.

(** The app a [DeleteApp] call names. *)
Definition deleted (ev : event ret) : option string :=
  match ev_call ev with
  | DeleteApp appName => Some appName
  | _ => None
  end.

(** The identifier a [uuid.New] call produced. *)
Definition fresh_uuid (ev : event ret) : option string :=
  match ev with
  | Ev uuid_New u => Some u
  | _ => None
  end.

(** The error of a step of the migration: of every call whose error
    [MigrateData] checks. *)
Definition step_error (ev : event ret) : option error :=
  match ev with
  | Ev (ioutil_TempDir _ _) a => a.2
  | Ev (Unpack _) e => e
  | Ev (PushApp _ _) e => e
  | Ev (BindService _ _) e => e
  | Ev (StartApp _) e => e
  | Ev (RunTask _ _) e => e
  | _ => None
  end.

(** The error of a failed [RunTask]. *)
Definition task_error (ev : event ret) : option error :=
  match ev with
  | Ev (RunTask _ _) e => e
  | _ => None
  end.

(** The directory a successful [ioutil.TempDir] made. *)
Definition made_dir (ev : event ret) : option string :=
  match ev with
  | Ev (ioutil_TempDir _ _) (d, None) => Some d
  | _ => None
  end.

(** The path an [os.RemoveAll] call names. *)
Definition removed (ev : event ret) : option string :=
  match ev_call ev with
  | os_RemoveAll p => Some p
  | _ => None
  end.

(** The app whose logs a [DumpLogs] call asks for. *)
Definition dumped (c : call) : option string :=
  match c with
  | DumpLogs a => Some a
  | _ => None
  end.

(** The app a call is about. *)
Definition app_of (c : call) : option string :=
  match c with
  | BindService a _ | DeleteApp a | DumpLogs a | PushApp _ a
  | RunTask a _ | StartApp a => Some a
  | _ => None
  end.

(** The error of a failed [RenameService]. *)
Definition rename_error (ev : event ret) : option error :=
  match ev with
  | Ev (RenameService _ _) e => e
  | _ => None
  end.

(** The [Migrator] struct; its [client] and [unpacker] are the handler
    the methods run against. *)
Record Migrator := { appName : string }.

Definition CheckServiceExists (m : Migrator) (donorInstanceName : string)
  : prog ret (option error) :=
  b ← invoke (ServiceExists donorInstanceName);
  if negb b
  then mret (Some ("Service instance " +:+ donorInstanceName +:+ " not found"))
  else mret None.

Definition CreateAndConfigureServiceInstance (m : Migrator)
  (planType serviceName : string) : prog ret (option error) :=
  err ← invoke (CreateServiceInstance planType serviceName);
  match err with
  | Some e => mret (Some ("Error creating service instance: " +:+ e))
  | None =>
      '(instanceIP, err) ← invoke (GetHostnames serviceName);
      match err with
      | Some e =>
          invoke (DeleteServiceInstance serviceName);;
          mret (Some ("Error obtaining hostname for new service instance: "
                      +:+ e))
      | None =>
          err ← invoke (UpdateServiceConfig serviceName
                          ("{" +:+ dquote +:+ "enable_tls" +:+ dquote +:+ ": ["
                           +:+ dquote +:+ sprint_strings instanceIP +:+ dquote
                           +:+ "]}"));
          mret None
      end
  end.

(** [MigrateData] assigns [m.appName]; the method returns the struct
    alongside its error. *)
Definition MigrateData (m : Migrator)
  (donorInstanceName recipientInstanceName : string)
  : prog ret (option error * Migrator) :=
  d ← invoke os_TempDir;
  '(tmpDir, err) ← invoke (ioutil_TempDir d "migrate_app_");
  match err with
  | Some e => mret (Some ("Error creating temp directory: " +:+ e), m)
  | None =>
  defer (invoke (os_RemoveAll tmpDir)) (
    err ← invoke (Unpack tmpDir);
    match err with
    | Some e => mret (Some ("Error extracting migrate assets: " +:+ e), m)
    | None =>
    u ← invoke uuid_New;
    let m := {| appName := "migrate-app-" +:+ u |} in
    err ← invoke (PushApp tmpDir (appName m));
    match err with
    | Some e => mret (Some ("failed to push application: " +:+ e), m)
    | None =>
    defer (invoke (DeleteApp (appName m))) (
      err ← invoke (BindService (appName m) donorInstanceName);
      match err with
      | Some e =>
          mret (Some ("failed to bind-service " +:+ Quote (appName m)
                      +:+ " to application " +:+ Quote donorInstanceName
                      +:+ ": " +:+ e), m)
      | None =>
      err ← invoke (BindService (appName m) recipientInstanceName);
      match err with
      | Some e =>
          mret (Some ("failed to bind-service " +:+ Quote (appName m)
                      +:+ " to application " +:+ Quote recipientInstanceName
                      +:+ ": " +:+ e), m)
      | None =>
      err ← invoke (StartApp (appName m));
      match err with
      | Some e =>
          mret (Some ("failed to start application " +:+ Quote (appName m)
                      +:+ ": " +:+ e), m)
      | None =>
      let command := "./migrate " +:+ donorInstanceName +:+ " "
                     +:+ recipientInstanceName in
      err ← invoke (RunTask (appName m) command);
      match err with
      | Some e =>
          invoke (time_Sleep 5);;
          invoke (DumpLogs (appName m));;
          mret (Some e, m)
      | None => mret (None, m)
      end end end end)
    end end)
  end.

Definition RenameServiceInstances (m : Migrator)
  (donorInstanceName recipientInstanceName : string) : prog ret (option error) :=
  let newDonorInstanceName := donorInstanceName +:+ "-old" in
  err ← invoke (RenameService donorInstanceName newDonorInstanceName);
  match err with
  | Some e =>
      mret (Some ("Error renaming service instance " +:+ donorInstanceName
                  +:+ ": " +:+ e))
  | None =>
      err ← invoke (RenameService recipientInstanceName donorInstanceName);
      match err with
      | Some e =>
          mret (Some ("Error renaming service instance "
                      +:+ recipientInstanceName +:+ ": " +:+ e))
      | None => mret None
      end
  end.

Definition CleanupOnError (m : Migrator) (recipientServiceInstance : string)
  : prog ret (option error) :=
  invoke (DeleteServiceInstance recipientServiceInstance).

End migrate.

(** ** Scripted collaborators of the [migrate] package, for examples *)

Module migratefakes.
Import migrate.

(** A world in which every call succeeds. *)
Definition all_ok : forall c : call, ret c :=
  fun c =>
    match c with
    | ServiceExists _ => true
    | GetHostnames _ => (["10.0.0.1"], None)
    | DumpLogs _ => tt
    | os_TempDir => "/tmp"
    | ioutil_TempDir d p => (d +:+ "/" +:+ p +:+ "1", None)
    | uuid_New => "6ba7b810"
    | time_Sleep _ => tt
    | _ => None
    end.

(** The same world, with a migration task that fails. *)
Definition task_fails : forall c : call, ret c :=
  fun c =>
    match c with
    | RunTask _ _ => Some "task exited with 1"
    | c' => all_ok c'
    end.

(** The same world, with no host name for the new instance. *)
Definition no_hostname : forall c : call, ret c :=
  fun c =>
    match c with
    | GetHostnames _ => ([], Some "no deployment")
    | c' => all_ok c'
    end.

(** Stateless answers, with a log of the calls. *)
Definition serve (w : forall c : call, ret c) : handler ret (list call) :=
  fun c log => (w c, (log ++ [c])%list).
End migratefakes.

(** ** A scripted [plugin.Migrator], for examples *)

Module pluginfakes.
Import plugin.

(** A migrator that cannot create the recipient instance. *)
Definition create_fails : handler Migrator_ret (list Migrator) :=
  fun c log =>
    (match c with
     | CreateAndConfigureServiceInstance _ _ => Some "quota exceeded"
     | _ => None
     end, (log ++ [c])%list).

(** A migrator whose data migration fails. *)
Definition migrate_fails : handler Migrator_ret (list Migrator) :=
  fun c log =>
    (match c with
     | MigrateData _ _ _ => Some "task exited with 1"
     | _ => None
     end, (log ++ [c])%list).

(** A migrator that does not find the donor instance. *)
Definition no_donor : handler Migrator_ret (list Migrator) :=
  fun c log =>
    (match c with
     | CheckServiceExists d => Some ("Service instance " +:+ d +:+ " not found")
     | _ => None
     end, (log ++ [c])%list).

(** A migrator that migrates the data and cannot rename. *)
Definition rename_fails : handler Migrator_ret (list Migrator) :=
  fun c log =>
    (match c with
     | RenameServiceInstances _ _ => Some "name taken"
     | _ => None
     end, (log ++ [c])%list).

(** A process whose output streams swallow what is written and whose
    migrator is [m]. *)
Definition quiet {St : Type} (m : handler Migrator_ret St)
  : handler Run_ret St :=
  fun c s =>
    match c as c0 return Run_ret c0 * St with
    | OnMigrator c' => m c' s
    | Stderr _ => (tt, s)
    | Stdout _ => (tt, s)
    end.
End pluginfakes.

(** * Properties *)

(** ** Running programs *)

Section RunFacts.
Context {call : Type} {ret : call -> Type} {St : Type}.
Implicit Types (h : handler ret St) (s : St).

Lemma run_ret {R} h (r : R) s : run h (mret r) s = Outcome r [] s.
Proof. reflexivity. Qed.

Lemma run_call {R} h c (k : ret c -> prog ret R) s :
  run h (Call c k) s =
  Outcome (result (run h (k (h c s).1) (h c s).2))
          (Ev c (h c s).1 :: trace (run h (k (h c s).1) (h c s).2))
          (final (run h (k (h c s).1) (h c s).2)).
Proof. reflexivity. Qed.

Lemma run_bind {A B} h (p : prog ret A) (f : A -> prog ret B) s :
  run h (p ≫= f) s =
  Outcome (result (run h (f (result (run h p s))) (final (run h p s))))
          (trace (run h p s)
             ++ trace (run h (f (result (run h p s))) (final (run h p s))))
          (final (run h (f (result (run h p s))) (final (run h p s)))).
Proof.
  unfold mbind, prog_bind.
  revert s. induction p as [a | c k IH]; intros s.
  - cbn. by destruct (run h (f a) s).
  - cbn [bind]. rewrite !run_call, IH. reflexivity.
Qed.

(** A deferred call is the last thing a function does. *)
Lemma run_defer {A R} h (d : prog ret A) (body : prog ret R) s :
  run h (defer d body) s =
  Outcome (result (run h body s))
          (trace (run h body s) ++ trace (run h d (final (run h body s))))
          (final (run h d (final (run h body s)))).
Proof.
  unfold defer.
  pose proof (run_bind h body (fun r => d ≫= (fun _ => mret r)) s) as E.
  unfold mbind, prog_bind, mret, prog_ret in E. rewrite E. clear E.
  pose proof (run_bind h d (fun _ => mret (result (run h body s)))
                (final (run h body s))) as E.
  unfold mbind, prog_bind, mret, prog_ret in E. rewrite E. clear E.
  cbn. by rewrite app_nil_r.
Qed.
End RunFacts.

(** ** [FindBindings] *)

Module FindBindingsSpec.
Import cfclient plugin findbindingsfakes.

(** What one call of [FindBindings] does, whatever the client answers:
    one service list call, whose answer is ignored, and the hard-coded
    record with a nil error. *)
Lemma FindBindings_outcome {St} (bf : bindingFinder St) (label : string) s :
  FindBindings bf label s =
  let c := ListServicesByQuery {[ "q" := ["label:" +:+ label] ]} in
  Outcome ([ {| App := "app"; Key := EmptyString;
                Org := "org-name"; Space := "space-name" |} ], None)
          [Ev c (cfClient bf c s).1] (cfClient bf c s).2.
Proof.
  unfold FindBindings, FindBindings_body, url.Values_Set.
  rewrite insert_empty. cbn.
  by destruct (cfClient bf _ s) as [[services e] s'].
Qed.
(** C1.  Fail-fast is not what the code does: on a catalog whose service
    list call fails, [FindBindings] still returns the hard-coded record and
    a nil error; the error of the call never reaches the caller. *)
Theorem FindBindings_swallows_list_error :
  let o := FindBindings (NewBindingFinder (serve outage)) "p.mysql" [] in
  map failure (trace o) = [Some "catalog unavailable"] /\
  result o = ([ {| App := "app"; Key := EmptyString;
                   Org := "org-name"; Space := "space-name" |} ], None).
Proof. rewrite FindBindings_outcome. by split. Qed.

(** C2.  On the fixture catalog of the test, [FindBindings "p.mysql"]
    returns the one hard-coded record, not the four records the test
    expects: the lengths differ, and no org or space name of the catalog
    appears in the output. *)
Theorem FindBindings_fixture_placeholder :
  let o := FindBindings (NewBindingFinder (serve fixture)) "p.mysql" [] in
  result o = ([ {| App := "app"; Key := EmptyString;
                   Org := "org-name"; Space := "space-name" |} ], None) /\
  length (result o).1 = 1 /\
  length expectedBindings = 4 /\
  map Org (result o).1 <> take 1 (map OrgName expectedBindings).
Proof. rewrite FindBindings_outcome. by repeat split. Qed.

(** C4.  On the fixture catalog the code issues no point lookup at all,
    where the test counts two calls each of [GetAppByGuid],
    [GetSpaceByGuid] and [GetOrgByGuid]; the org and space of the output
    are constants, not those of the app of the first binding of
    [instance1]. *)
Theorem FindBindings_resolves_nothing :
  let o := FindBindings (NewBindingFinder (serve fixture)) "p.mysql" [] in
  CallCount (GetAppByGuid "app1-guid") (final o) = 0 /\
  CallCount (GetSpaceByGuid "space1-guid") (final o) = 0 /\
  CallCount (GetOrgByGuid "app1-org-guid") (final o) = 0 /\
  map (fun b => (Org b, Space b)) (result o).1
    = [("org-name", "space-name")] /\
  map (fun b => (Org b, Space b)) (result o).1
    <> [(Org_Name (Space_OrgData (App_SpaceData smallApp)),
         Space_Name (App_SpaceData smallApp))].
Proof. rewrite FindBindings_outcome. by repeat split. Qed.

(** C5.  On a catalog in which no service matches the label the output
    is not empty: it is the hard-coded record. *)
Theorem FindBindings_no_service_not_empty :
  let o := FindBindings (NewBindingFinder (serve no_service)) "p.mysql" [] in
  (trace o) = [Ev (ListServicesByQuery {[ "q" := ["label:p.mysql"] ]})
                  ([], None)] /\
  result o = ([ {| App := "app"; Key := EmptyString;
                   Org := "org-name"; Space := "space-name" |} ], None) /\
  (result o).1 <> [].
Proof. rewrite FindBindings_outcome. by repeat split. Qed.

(** C6.  Every filtered-list call that [FindBindings] issues carries one
    equality predicate on one field: the only call is the service list
    call, and its query is the single parameter [q] with the single value
    [label:L]. *)
Theorem FindBindings_single_predicate {St} (bf : bindingFinder St)
  (L : string) s :
  let o := FindBindings bf L s in
  calls (trace o) = [ListServicesByQuery {[ "q" := ["label:" +:+ L] ]}] /\
  Forall carries_single_predicate (calls (trace o)) /\
  forall q, ListServicesByQuery q ∈ calls (trace o) ->
    size q = 1 /\ q !! "q" = Some ["label:" +:+ L].
Proof.
  rewrite FindBindings_outcome. cbn. split; [done|]. split.
  - constructor; [|constructor]. by exists "label", L.
  - intros q Hq. apply list_elem_of_singleton in Hq.
    injection Hq as ->. split.
    + apply map_size_singleton.
    + apply lookup_singleton_eq.
Qed.

(** C8.  Two calls of [FindBindings] in a row, with the same label on the
    same client, return the same output and issue the same calls; the
    finder itself has no field that a call could change. *)
Theorem FindBindings_twice_same {St} (bf : bindingFinder St)
  (label : string) s :
  let o1 := FindBindings bf label s in
  let o2 := FindBindings bf label (final o1) in
  result o2 = result o1 /\ calls (trace o2) = calls (trace o1).
Proof. cbn zeta. rewrite !FindBindings_outcome. by split. Qed.
End FindBindingsSpec.

(** ** [Migrate] *)

Module MigrateSpec.
Import plugin pluginfakes.

(** C7, as stated, fails: with [--no-cleanup] the error that [Migrate]
    returns is not the error it returns without the flag.  The migrator
    below cannot create the recipient instance. *)
Lemma Migrate_no_cleanup_other_error :
  result (run create_fails
            (Migrate ParseArgs ["--no-cleanup"; "db"; "small"]) [])
  <> result (run create_fails (Migrate ParseArgs ["db"; "small"]) []).
Proof. vm_compute. discriminate. Qed.

Section Cleanup.
Context {St : Type}.
Variable ParseArgs : list string -> opts_t * list string * option error.
Variable h : handler Migrator_ret St.

(** C7, amended.  When the command line parses and creating the
    recipient instance or migrating the data fails with error [e]:
    without [--no-cleanup], [CleanupOnError] is called once, last, on the
    donor name followed by [-new], and the error returned ends in
    [Attempting to clean up service]; with [--no-cleanup],
    [CleanupOnError] is not called, the migrator is left as the failing
    call left it, and the error returned reports the same [e] and ends in
    [Not cleaning up service]. *)
Theorem Migrate_failure_cleanup args opts s what e s' :
  ParseArgs args = (opts, [], None) ->
  step_fails h s opts what e s' ->
  if NoCleanup opts then
    result (run h (Migrate ParseArgs args) s)
      = Some ("error " +:+ what +:+ ": " +:+ e
              +:+ ". Not cleaning up service " +:+ Source opts +:+ "-new") /\
    filter is_CleanupOnError (calls (trace (run h (Migrate ParseArgs args) s)))
      = [] /\
    final (run h (Migrate ParseArgs args) s) = s'
  else
    result (run h (Migrate ParseArgs args) s)
      = Some ("error " +:+ what +:+ ": " +:+ e
              +:+ ". Attempting to clean up service "
              +:+ Source opts +:+ "-new") /\
    filter is_CleanupOnError (calls (trace (run h (Migrate ParseArgs args) s)))
      = [CleanupOnError (Source opts +:+ "-new")] /\
    last (calls (trace (run h (Migrate ParseArgs args) s)))
      = Some (CleanupOnError (Source opts +:+ "-new")).
Proof.
  intros Hparse Hfail. unfold Migrate. rewrite Hparse.
  rewrite bool_decide_eq_false_2 by (intros [?|?]; done).
  unfold invoke, mbind, prog_bind, mret, prog_ret.
  cbn [bind run result trace final].
  inversion Hfail as [s1 s2 e' Hc Hk | s1 s2 s3 e' Hc Hk Hm]; subst.
  - rewrite Hc. cbn [fst snd bind run result trace final]. rewrite Hk.
    destruct (NoCleanup opts); cbn; by repeat split.
  - rewrite Hc. cbn [fst snd bind run result trace final]. rewrite Hk.
    cbn [fst snd bind run result trace final].
    destruct (NoCleanup opts); cbn [negb] in *; rewrite Hm; cbn;
      by repeat split.
Qed.
End Cleanup.

(** The theorem at work: creation fails and cleanup is on. *)
Lemma Migrate_failure_cleanup_witness :
  result (run create_fails (Migrate ParseArgs ["db"; "small"]) [])
    = Some ("error creating service instance: quota exceeded"
            +:+ ". Attempting to clean up service db-new") /\
  filter is_CleanupOnError
    (calls (trace (run create_fails (Migrate ParseArgs ["db"; "small"]) [])))
    = [CleanupOnError "db-new"] /\
  last (calls (trace (run create_fails (Migrate ParseArgs ["db"; "small"]) [])))
    = Some (CleanupOnError "db-new").
Proof.
  exact (Migrate_failure_cleanup ParseArgs create_fails ["db"; "small"]
           {| Source := "db"; PlanName := "small"; NoCleanup := false |}
           [] "creating service instance" "quota exceeded" _
           eq_refl
           (fails_creating create_fails [] _ _ _ _ eq_refl eq_refl)).
Defined.

(** The data migration fails and [--no-cleanup] is given. *)
Example Migrate_no_cleanup_migration_failure :
  let o := run migrate_fails
             (Migrate ParseArgs ["--no-cleanup"; "db"; "small"]) [] in
  result o = Some ("error migrating data: task exited with 1"
                   +:+ ". Not cleaning up service db-new") /\
  calls (trace o) =
    [ CheckServiceExists "db";
      CreateAndConfigureServiceInstance "small" "db-new";
      MigrateData "db" "db-new" false ].
Proof. by vm_compute. Qed.
End MigrateSpec.

(** ** The [Migrator] of package [migrate] *)

Module MigratorSpec.
Import migrate migratefakes.

(** Case analysis on the answer of the next call to the handler [h]. *)
Ltac answer h :=
  match goal with
  | |- context [h ?c ?s] =>
      let a := fresh "a" in
      let s' := fresh "s" in
      destruct (h c s) as [a s'];
      let T := eval cbn in (ret c) in
      lazymatch T with
      | option _ => destruct a as [?|]
      | (_ * option _)%type => destruct a as [? [?|]]
      | _ => idtac
      end;
      cbn [fst snd bind run result trace final appName] in *
  end.

(** Case analysis on an index [i] into a trace of at most [14] events,
    keeping the positions at which hypothesis [H] can hold. *)
Ltac at_index i H :=
  do 14 (try (destruct i as [|i]; [cbn in H; try discriminate H|]));
  try (cbn in H; discriminate H).

Ltac pick j := exists j; split; [lia | reflexivity].

(** C9.  [CreateAndConfigureServiceInstance] returns an error exactly
    when [CreateServiceInstance] fails or, that having succeeded,
    [GetHostnames] fails.  When [GetHostnames] fails the last call is
    [DeleteServiceInstance] on the instance just created.  When both
    succeed, [UpdateServiceConfig] is called and nil is returned whatever
    it answers. *)
Theorem CreateAndConfigure_error_iff {St} (h : handler ret St) s m
  (planType serviceName : string) :
  let created := h (CreateServiceInstance planType serviceName) s in
  let hosts := h (GetHostnames serviceName) created.2 in
  let o := run h (CreateAndConfigureServiceInstance m planType serviceName) s in
  (is_Some (result o)
   <-> is_Some created.1 \/ (created.1 = None /\ is_Some hosts.1.2)) /\
  match created.1, hosts.1.2 with
  | Some e, _ =>
      result o = Some ("Error creating service instance: " +:+ e) /\
      calls (trace o) = [CreateServiceInstance planType serviceName]
  | None, Some e =>
      result o
        = Some ("Error obtaining hostname for new service instance: " +:+ e) /\
      calls (trace o) =
        [ CreateServiceInstance planType serviceName;
          GetHostnames serviceName;
          DeleteServiceInstance serviceName ]
  | None, None =>
      result o = None /\
      exists jsonParams,
        calls (trace o) =
          [ CreateServiceInstance planType serviceName;
            GetHostnames serviceName;
            UpdateServiceConfig serviceName jsonParams ]
  end.
Proof.
  cbn zeta.
  unfold CreateAndConfigureServiceInstance, invoke, mbind, prog_bind, mret,
    prog_ret.
  cbn [bind run result trace final].
  destruct (h (CreateServiceInstance planType serviceName) s) as [[e|] s1];
    cbn [fst snd bind run result trace final].
  - split; [|done]. split; [by left | by eauto].
  - destruct (h (GetHostnames serviceName) s1) as [[ips [e|]] s2];
      cbn [fst snd bind run result trace final].
    + split; [|done]. split; [by right | by eauto].
    + split.
      * split; [by intros [? ?] | intros [[? ?] | [_ [? ?]]]; done].
      * split; [done | by eexists].
Qed.

(** The error of [UpdateServiceConfig] is dropped. *)
Example CreateAndConfigure_update_error_dropped :
  let w : forall c : call, ret c :=
    fun c =>
      match c with
      | UpdateServiceConfig _ _ => Some "update rejected"
      | c' => all_ok c'
      end in
  let o := run (serve w)
             (CreateAndConfigureServiceInstance
                {| appName := EmptyString |} "small" "db-new") [] in
  result o = None /\
  calls (trace o) =
    [ CreateServiceInstance "small" "db-new";
      GetHostnames "db-new";
      UpdateServiceConfig "db-new"
        ("{" +:+ dquote +:+ "enable_tls" +:+ dquote +:+ ": [" +:+ dquote
         +:+ "[10.0.0.1]" +:+ dquote +:+ "]}") ].
Proof. by vm_compute. Qed.

(** C10.  In the calls of one [MigrateData], a [PushApp] that succeeded
    is followed by a [DeleteApp] of the app it pushed, and the name of
    that app is [migrate-app-] followed by the identifier that an earlier
    [uuid.New] produced, whatever the later binds, the start and the task
    answer. *)
Theorem MigrateData_deletes_pushed_app {St} (h : handler ret St) s m
  (donor recipient : string) (i : nat) (name : string) :
  pushed <$> (trace (run h (MigrateData m donor recipient) s) !! i)
    = Some (Some name) ->
  (exists j, i < j /\
     deleted <$> (trace (run h (MigrateData m donor recipient) s) !! j)
       = Some (Some name)) /\
  (exists k u, k < i /\
     fresh_uuid <$> (trace (run h (MigrateData m donor recipient) s) !! k)
       = Some (Some u) /\
     name = "migrate-app-" +:+ u).
Proof.
  unfold MigrateData, defer, invoke, mbind, prog_bind, mret, prog_ret.
  cbn [bind run result trace final].
  repeat answer h; intros H; at_index i H.
  all: injection H as <-.
  all: split;
    [ first [pick 6 | pick 7 | pick 8 | pick 9 | pick 11]
    | exists 3; eexists; split; [lia | split; reflexivity] ].
Qed.

(** The theorem at work: the task fails, the app is deleted all the
    same. *)
Lemma MigrateData_deletes_pushed_app_witness :
  (exists j, 4 < j /\
     deleted <$> (trace (run (serve task_fails)
                           (MigrateData {| appName := EmptyString |}
                              "db" "db-new") []) !! j)
       = Some (Some "migrate-app-6ba7b810")) /\
  (exists k u, k < 4 /\
     fresh_uuid <$> (trace (run (serve task_fails)
                              (MigrateData {| appName := EmptyString |}
                                 "db" "db-new") []) !! k)
       = Some (Some u) /\
     "migrate-app-6ba7b810" = "migrate-app-" +:+ u).
Proof.
  exact (MigrateData_deletes_pushed_app (serve task_fails) []
           {| appName := EmptyString |} "db" "db-new" 4
           "migrate-app-6ba7b810" eq_refl).
Defined.

(** Every way [MigrateData] can end after a successful push: the last two
    calls are the deferred ones, in reverse order of their [defer]. *)
Lemma MigrateData_deferred_last {St} (h : handler ret St) s m
  (donor recipient : string) (i : nat) (name : string) :
  pushed <$> (trace (run h (MigrateData m donor recipient) s) !! i)
    = Some (Some name) ->
  exists pre tmp,
    calls (trace (run h (MigrateData m donor recipient) s))
      = (pre ++ [DeleteApp name; os_RemoveAll tmp])%list.
Proof.
  unfold MigrateData, defer, invoke, mbind, prog_bind, mret, prog_ret.
  cbn [bind run result trace final].
  repeat answer h; intros H; at_index i H.
  all: injection H as <-.
  all: cbn [calls map ev_call app].
  all: match goal with
       | |- exists pre tmp, ?l = _ =>
           exists (take (length l - 2) l); eexists; reflexivity
       end.
Qed.
End MigratorSpec.

(** ** [Migrate]: the other paths *)

Module MigratePaths.
Import plugin pluginfakes.

(** Case analysis on what the migrator [h] answers to the next call. *)
Ltac migrator_answers h :=
  match goal with
  | |- context [h ?c ?s] =>
      let e := fresh "e" in
      let s' := fresh "s" in
      destruct (h c s) as [[e|] s'];
      cbn [fst snd bind run result trace final negb] in *
  end.

Ltac open_Migrate :=
  unfold Migrate, invoke, mbind, prog_bind, mret, prog_ret.

(** The calls made are the first [n] of the script, then a cleanup or
    none. *)
Ltac shape n cleaned :=
  exists n, cleaned; cbn; repeat split; try lia; try done.

Section Paths.
Context {St : Type}.
Variable ParseArgs : list string -> opts_t * list string * option error.
Variable h : handler Migrator_ret St.

(** A command line that does not parse, or that leaves arguments over,
    is answered with the usage text; the migrator is not called.  The
    message of the parser wins over the list of left-over arguments. *)
Theorem Migrate_usage_error args opts rest perr s :
  ParseArgs args = (opts, rest, perr) ->
  perr <> None \/ rest <> [] ->
  run h (Migrate ParseArgs args) s =
  Outcome
    (Some ("Usage: " +:+ migrateUsage +:+ newline +:+ newline
           +:+ match perr with
               | Some e => e
               | None => "unexpected arguments: " +:+ Join rest " "
               end))
    [] s.
Proof.
  intros Hparse Hbad. open_Migrate. rewrite Hparse.
  rewrite bool_decide_eq_true_2; [reflexivity|].
  destruct Hbad as [?|Hrest]; [by left | right].
  by destruct rest.
Qed.

(** When the donor instance does not exist, the error of
    [CheckServiceExists] is returned as it is and nothing else is
    called: no instance is created and none is cleaned up. *)
Theorem Migrate_donor_missing args opts s e s1 :
  ParseArgs args = (opts, [], None) ->
  h (CheckServiceExists (Source opts)) s = (Some e, s1) ->
  run h (Migrate ParseArgs args) s =
  Outcome (Some e) [Ev (CheckServiceExists (Source opts)) (Some e)] s1.
Proof.
  intros Hparse Hcheck. open_Migrate. rewrite Hparse.
  rewrite bool_decide_eq_false_2 by (intros [?|?]; done).
  cbn [bind run result trace final]. by rewrite Hcheck.
Qed.

(** [Migrate] returns nil exactly when it made four calls and all four
    succeeded. *)
Theorem Migrate_nil_iff args s :
  result (run h (Migrate ParseArgs args) s) = None
  <-> map answer (trace (run h (Migrate ParseArgs args) s))
      = [None; None; None; None].
Proof.
  open_Migrate. destruct (ParseArgs args) as [[opts rest] perr].
  case_bool_decide; [by cbn|].
  cbn [bind run result trace final].
  repeat migrator_answers h; try (by cbn).
  all: destruct (NoCleanup opts); cbn [negb bind run result trace final];
    repeat migrator_answers h; by cbn.
Qed.

(** The calls of [Migrate] are an initial part of check, create,
    migrate, rename, all naming the donor and the donor followed by
    [-new], with at most one [CleanupOnError] after them; a cleanup
    happens only without [--no-cleanup], only after the create or the
    migrate call, and only when [Migrate] returns an error. *)
Theorem Migrate_call_protocol args s :
  let opts := (ParseArgs args).1.1 in
  exists (n : nat) (cleaned : bool),
    calls (trace (run h (Migrate ParseArgs args) s))
    = (take n (script (Source opts) (PlanName opts) (NoCleanup opts))
         ++ if cleaned then [CleanupOnError (Source opts +:+ "-new")]
            else [])%list /\
    n <= 4 /\
    (cleaned = true ->
     NoCleanup opts = false /\ (n = 2 \/ n = 3) /\
     is_Some (result (run h (Migrate ParseArgs args) s))).
Proof.
  open_Migrate. destruct (ParseArgs args) as [[opts rest] perr].
  cbn [fst snd]. case_bool_decide; [by shape 0 false|].
  cbn [bind run result trace final].
  migrator_answers h; [by shape 1 false|].
  migrator_answers h.
  { destruct (NoCleanup opts) eqn:Hnc; cbn [negb bind run result trace final].
    - by shape 2 false.
    - migrator_answers h; shape 2 true; eauto. }
  destruct (NoCleanup opts) eqn:Hnc; cbn [negb bind run result trace final].
  - migrator_answers h; [by shape 3 false|].
    migrator_answers h; by shape 4 false.
  - migrator_answers h.
    + migrator_answers h; shape 3 true; eauto.
    + migrator_answers h; by shape 4 false.
Qed.

(** Once check, create and migrate have succeeded, [Migrate] returns
    what [RenameServiceInstances] returns, unchanged; a failed rename is
    not followed by a cleanup, with or without [--no-cleanup]. *)
Theorem Migrate_rename_result args opts s s1 s2 s3 :
  ParseArgs args = (opts, [], None) ->
  h (CheckServiceExists (Source opts)) s = (None, s1) ->
  h (CreateAndConfigureServiceInstance
       (PlanName opts) (Source opts +:+ "-new")) s1 = (None, s2) ->
  h (MigrateData (Source opts) (Source opts +:+ "-new")
       (negb (NoCleanup opts))) s2 = (None, s3) ->
  result (run h (Migrate ParseArgs args) s)
    = (h (RenameServiceInstances
            (Source opts) (Source opts +:+ "-new")) s3).1 /\
  calls (trace (run h (Migrate ParseArgs args) s))
    = script (Source opts) (PlanName opts) (NoCleanup opts) /\
  final (run h (Migrate ParseArgs args) s)
    = (h (RenameServiceInstances
            (Source opts) (Source opts +:+ "-new")) s3).2.
Proof.
  intros Hparse Hcheck Hcreate Hmigrate. open_Migrate. rewrite Hparse.
  rewrite bool_decide_eq_false_2 by (intros [?|?]; done).
  cbn [bind run result trace final]. rewrite Hcheck.
  cbn [fst snd bind run result trace final]. rewrite Hcreate.
  cbn [fst snd bind run result trace final]. rewrite Hmigrate.
  by cbn.
Qed.

(** The instances are renamed only after the donor was found, the
    recipient created and the data migrated: a rename is the fourth call
    and the three calls before it succeeded. *)
Theorem Migrate_renames_after_success args s i d r :
  calls (trace (run h (Migrate ParseArgs args) s)) !! i
    = Some (RenameServiceInstances d r) ->
  i = 3 /\
  map answer (take i (trace (run h (Migrate ParseArgs args) s)))
    = [None; None; None] /\
  d = Source (ParseArgs args).1.1 /\ r = d +:+ "-new".
Proof.
  open_Migrate. destruct (ParseArgs args) as [[opts rest] perr].
  cbn [fst snd]. case_bool_decide; [by cbn|].
  cbn [bind run result trace final].
  repeat migrator_answers h;
    try (destruct (NoCleanup opts);
         cbn [negb bind run result trace final];
         repeat migrator_answers h).
  all: intros Hi;
    do 5 (try (destruct i as [|i]; [cbn in Hi; try discriminate Hi|]));
    try (cbn in Hi; discriminate Hi).
  all: injection Hi as <- <-; by cbn.
Qed.
End Paths.

(** The usage error at work: one argument too many. *)
Lemma Migrate_usage_error_witness :
  run create_fails (Migrate ParseArgs ["db"; "small"; "extra"]) [] =
  Outcome
    (Some ("Usage: " +:+ migrateUsage +:+ newline +:+ newline
           +:+ "unexpected arguments: extra"))
    [] [].
Proof.
  apply (Migrate_usage_error ParseArgs create_fails ["db"; "small"; "extra"]
           {| Source := "db"; PlanName := "small"; NoCleanup := false |}
           ["extra"] None []).
  - reflexivity.
  - right. discriminate.
Defined.

(** The missing donor at work. *)
Lemma Migrate_donor_missing_witness :
  run no_donor (Migrate ParseArgs ["db"; "small"]) [] =
  Outcome (Some "Service instance db not found")
    [Ev (CheckServiceExists "db") (Some "Service instance db not found")]
    [CheckServiceExists "db"].
Proof.
  exact (Migrate_donor_missing ParseArgs no_donor ["db"; "small"]
           {| Source := "db"; PlanName := "small"; NoCleanup := false |}
           [] _ _ eq_refl eq_refl).
Defined.

(** A failed rename at work: its error comes back as it is, and the new
    instance stays. *)
Lemma Migrate_rename_result_witness :
  result (run rename_fails (Migrate ParseArgs ["db"; "small"]) [])
    = Some "name taken" /\
  calls (trace (run rename_fails (Migrate ParseArgs ["db"; "small"]) []))
    = [ CheckServiceExists "db";
        CreateAndConfigureServiceInstance "small" "db-new";
        MigrateData "db" "db-new" true;
        RenameServiceInstances "db" "db-new" ] /\
  final (run rename_fails (Migrate ParseArgs ["db"; "small"]) [])
    = [ CheckServiceExists "db";
        CreateAndConfigureServiceInstance "small" "db-new";
        MigrateData "db" "db-new" true;
        RenameServiceInstances "db" "db-new" ].
Proof.
  exact (Migrate_rename_result ParseArgs rename_fails ["db"; "small"]
           {| Source := "db"; PlanName := "small"; NoCleanup := false |}
           [] _ _ _ eq_refl eq_refl eq_refl eq_refl).
Defined.

(** The rename at work, with a migrator that cannot rename. *)
Lemma Migrate_renames_after_success_witness :
  3 = 3 /\
  map answer
    (take 3 (trace (run rename_fails (Migrate ParseArgs ["db"; "small"]) [])))
    = [None; None; None] /\
  "db" = Source (ParseArgs ["db"; "small"]).1.1 /\ "db-new" = "db" +:+ "-new".
Proof.
  exact (Migrate_renames_after_success ParseArgs rename_fails
           ["db"; "small"] [] 3 "db" "db-new" eq_refl).
Defined.
End MigratePaths.

(** ** The [Migrator] of package [migrate]: the other paths *)

Module MigratorPaths.
Import migrate migratefakes.

(** Case analysis on what the world [h] answers to the next call. *)
Ltac world_answers h :=
  match goal with
  | |- context [h ?c ?s] =>
      let a := fresh "a" in
      let s' := fresh "s" in
      destruct (h c s) as [a s'];
      let T := eval cbn in (ret c) in
      lazymatch T with
      | option _ => destruct a as [?|]
      | (_ * option _)%type => destruct a as [? [?|]]
      | _ => idtac
      end;
      cbn [fst snd bind run result trace final appName] in *
  end.

Ltac open_MigrateData :=
  unfold MigrateData, defer, invoke, mbind, prog_bind, mret, prog_ret;
  cbn [bind run result trace final].

(** [RenameServiceInstances] returns nil exactly when both renames
    succeed.  When the first fails the second is not tried; when the
    second fails the donor keeps the name ending in [-old]: no third call
    renames it back. *)
Theorem RenameServiceInstances_errors {St} (h : handler ret St) s m
  (donor recipient : string) :
  let first := h (RenameService donor (donor +:+ "-old")) s in
  let second := h (RenameService recipient donor) first.2 in
  let o := run h (RenameServiceInstances m donor recipient) s in
  (result o = None <-> first.1 = None /\ second.1 = None) /\
  match first.1, second.1 with
  | Some e, _ =>
      result o = Some ("Error renaming service instance " +:+ donor
                       +:+ ": " +:+ e) /\
      calls (trace o) = [RenameService donor (donor +:+ "-old")]
  | None, Some e =>
      result o = Some ("Error renaming service instance " +:+ recipient
                       +:+ ": " +:+ e) /\
      calls (trace o) = [ RenameService donor (donor +:+ "-old");
                          RenameService recipient donor ]
  | None, None =>
      calls (trace o) = [ RenameService donor (donor +:+ "-old");
                          RenameService recipient donor ]
  end.
Proof.
  cbn zeta.
  unfold RenameServiceInstances, invoke, mbind, prog_bind, mret, prog_ret.
  cbn [bind run result trace final].
  destruct (h (RenameService donor (donor +:+ "-old")) s) as [[e|] s1];
    cbn [fst snd bind run result trace final].
  - split; [|done]. split; [done | by intros [? _]].
  - destruct (h (RenameService recipient donor) s1) as [[e|] s2];
      cbn [fst snd bind run result trace final].
    + split; [|done]. split; [done | by intros [_ ?]].
    + by split.
Qed.

(** The temporary directory: when [ioutil.TempDir] fails nothing else is
    called and nothing is removed; when it succeeds, the directory it
    made is removed by the last call of [MigrateData], on every path. *)
Theorem MigrateData_removes_temp_dir {St} (h : handler ret St) s m
  (donor recipient : string) :
  let o := run h (MigrateData m donor recipient) s in
  match omap made_dir (trace o) with
  | [] =>
      calls (trace o)
        = [os_TempDir; ioutil_TempDir (h os_TempDir s).1 "migrate_app_"] /\
      is_Some (result o).1
  | [tmp] =>
      last (calls (trace o)) = Some (os_RemoveAll tmp) /\
      omap removed (trace o) = [tmp]
  | _ => False
  end.
Proof.
  cbn zeta. open_MigrateData.
  repeat world_answers h; cbn; eauto.
Qed.

(** [MigrateData] returns nil exactly when no step failed; it stops at
    the first step that fails.  What [DeleteApp] and [os.RemoveAll]
    answer does not count. *)
Theorem MigrateData_nil_iff {St} (h : handler ret St) s m
  (donor recipient : string) :
  let o := run h (MigrateData m donor recipient) s in
  ((result o).1 = None <-> omap step_error (trace o) = []) /\
  length (omap step_error (trace o)) <= 1.
Proof.
  cbn zeta. open_MigrateData.
  repeat world_answers h; cbn; (split; [by split | lia]).
Qed.

(** The logs of the migration app are fetched exactly when the task
    failed, five seconds after the failure; the error of the task is
    returned as it is, and the app is deleted after its logs were
    fetched. *)
Theorem MigrateData_dumps_logs_iff_task_fails {St} (h : handler ret St) s m
  (donor recipient : string) :
  let o := run h (MigrateData m donor recipient) s in
  match omap task_error (trace o) with
  | [] => omap dumped (calls (trace o)) = []
  | [e] =>
      (result o).1 = Some e /\
      exists pre app cmd tmp,
        calls (trace o)
        = (pre ++ [ RunTask app cmd; time_Sleep 5; DumpLogs app;
                    DeleteApp app; os_RemoveAll tmp ])%list
  | _ => False
  end.
Proof.
  cbn zeta. open_MigrateData.
  repeat world_answers h; cbn; try done.
  all: split; [done|].
  all: match goal with
       | |- exists pre app cmd tmp, ?l = _ =>
           exists (take (length l - 5) l); by do 3 eexists
       end.
Qed.

(** The apps [MigrateData] deletes are the apps it pushed: one at most,
    and none when the push failed or was not reached. *)
Theorem MigrateData_deletes_only_pushed {St} (h : handler ret St) s m
  (donor recipient : string) :
  let o := run h (MigrateData m donor recipient) s in
  omap deleted (trace o) = omap pushed (trace o) /\
  length (omap pushed (trace o)) <= 1.
Proof.
  cbn zeta. open_MigrateData.
  repeat world_answers h; cbn; (split; [done | lia]).
Qed.

(** On return [m.appName] is [migrate-app-] followed by the identifier
    drawn, also when the push then failed; it is unchanged when no
    identifier was drawn.  Every call about an app names that app. *)
Theorem MigrateData_appName {St} (h : handler ret St) s m
  (donor recipient : string) :
  let o := run h (MigrateData m donor recipient) s in
  (result o).2
    = match omap fresh_uuid (trace o) with
      | u :: _ => {| appName := "migrate-app-" +:+ u |}
      | [] => m
      end /\
  Forall (fun a => a = appName (result o).2) (omap app_of (calls (trace o))).
Proof.
  cbn zeta. open_MigrateData.
  repeat world_answers h; cbn; (split; [done | by repeat constructor]).
Qed.

(** Case analysis on an index [i] into a list of at most [14] elements,
    keeping the positions at which hypothesis [H] can hold. *)
Ltac position i H :=
  do 14 (try (destruct i as [|i]; [cbn in H; try discriminate H|]));
  try (cbn in H; discriminate H).

(** The migration task is run only after every earlier step succeeded;
    the three calls before it bind the app to the donor, bind it to the
    recipient and start it, and the command names donor and recipient in
    that order. *)
Theorem MigrateData_task_after_binds {St} (h : handler ret St) s m
  (donor recipient : string) (i : nat) (app cmd : string) :
  calls (trace (run h (MigrateData m donor recipient) s)) !! i
    = Some (RunTask app cmd) ->
  cmd = "./migrate " +:+ donor +:+ " " +:+ recipient /\
  omap step_error (take i (trace (run h (MigrateData m donor recipient) s)))
    = [] /\
  exists pre,
    take i (calls (trace (run h (MigrateData m donor recipient) s)))
    = (pre ++ [ BindService app donor; BindService app recipient;
                StartApp app ])%list.
Proof.
  open_MigrateData.
  repeat world_answers h; intros H; position i H.
  all: injection H as <- <-.
  all: cbn; repeat split.
  all: match goal with
       | |- exists pre, ?l = _ => by exists (take (length l - 3) l)
       end.
Qed.

(** The theorem at work, in a world where everything succeeds. *)
Lemma MigrateData_task_after_binds_witness :
  "./migrate db db-new" = "./migrate " +:+ "db" +:+ " " +:+ "db-new" /\
  omap step_error
    (take 8 (trace (run (serve all_ok)
                      (MigrateData {| appName := EmptyString |} "db" "db-new")
                      []))) = [] /\
  exists pre,
    take 8 (calls (trace (run (serve all_ok)
                            (MigrateData {| appName := EmptyString |}
                               "db" "db-new") [])))
    = (pre ++ [ BindService "migrate-app-6ba7b810" "db";
                BindService "migrate-app-6ba7b810" "db-new";
                StartApp "migrate-app-6ba7b810" ])%list.
Proof.
  exact (MigrateData_task_after_binds (serve all_ok) []
           {| appName := EmptyString |} "db" "db-new" 8
           "migrate-app-6ba7b810" "./migrate db db-new" eq_refl).
Defined.
End MigratorPaths.

(** ** [MySQLPlugin.Run] *)

Module RunSpec.
Import plugin pluginfakes.

(** Running a translated program is running the program against the
    restricted implementation. *)
Lemma run_translate {call call' : Type} {ret : call -> Type}
  {ret' : call' -> Type} {St R : Type} (f : call -> call')
  (g : forall c, ret' (f c) -> ret c) (h : handler ret' St)
  (p : prog ret R) s :
  result (run h (translate f g p) s) = result (run (restrict f g h) p s) /\
  calls (trace (run h (translate f g p) s))
    = map f (calls (trace (run (restrict f g h) p s))) /\
  final (run h (translate f g p) s) = final (run (restrict f g h) p s).
Proof.
  revert s. induction p as [r | c k IH]; intros s; [done|].
  cbn [translate run result trace final calls map ev_call].
  destruct (IH (g c (h (f c) s).1) (h (f c) s).2) as (Hr & Hc & Hf).
  unfold restrict at 1 4 7. cbn [fst snd].
  unfold calls in Hc. by rewrite Hr, Hc, Hf.
Qed.

(** The migrator calls among embedded migrator calls are all of them. *)
Lemma omap_on_migrator (l : list Migrator) :
  omap on_migrator (map OnMigrator l) = l.
Proof. induction l as [|c l IH]; [done|]. cbn. by rewrite IH. Qed.

Section Run.
Context {St : Type}.
Variable ParseArgs : list string -> opts_t * list string * option error.
Variables version gitSHA : string.
Variable h : handler Run_ret St.

(** [Run] with the command [migrate] is [Migrate] on the arguments after
    the command: the plugin's error is what [Migrate] returned, and the
    migrator gets the calls of [Migrate], in their order, and no other. *)
Theorem Run_migrate c arg0 rest s :
  arg0 <> "CLI-MESSAGE-UNINSTALL" ->
  result (run h (Run ParseArgs version gitSHA c (arg0 :: "migrate" :: rest)) s)
    = Returned
        {| err := result (run (migrator_of h) (Migrate ParseArgs rest) s) |} /\
  omap on_migrator
    (calls (trace (run h (Run ParseArgs version gitSHA c
                            (arg0 :: "migrate" :: rest)) s)))
    = calls (trace (run (migrator_of h) (Migrate ParseArgs rest) s)).
Proof.
  intros Hne. unfold Run.
  rewrite (proj2 (String.eqb_neq _ _) Hne).
  rewrite bool_decide_eq_false_2 by (cbn; lia).
  change (default EmptyString ((arg0 :: "migrate" :: rest) !! 1))
    with "migrate".
  change (String.eqb "migrate" "version") with false.
  change (String.eqb "migrate" "migrate") with true.
  cbn [drop].
  destruct (run_translate (ret := Migrator_ret) (ret' := Run_ret)
              OnMigrator (fun _ x => x) h (Migrate ParseArgs rest) s)
    as (Hr & Hc & _).
  rewrite run_bind. cbn [result trace final run mret prog_ret].
  unfold calls in *. rewrite map_app, app_nil_r, drop_0.
  rewrite Hr, Hc. split; [done|].
  apply omap_on_migrator.
Qed.

(** [Run] leaves the migrator alone unless the command is [migrate]:
    for the uninstall message, whatever follows it, and for every other
    or missing command, no migrator call is made. *)
Theorem Run_spares_migrator c args s :
  args !! 0 = Some "CLI-MESSAGE-UNINSTALL" \/ args !! 1 <> Some "migrate" ->
  omap on_migrator
    (calls (trace (run h (Run ParseArgs version gitSHA c args) s))) = [].
Proof.
  intros Hargs. unfold Run.
  destruct args as [|arg0 args']; [done|].
  destruct (String.eqb_spec arg0 "CLI-MESSAGE-UNINSTALL") as [->|Hne]; [done|].
  destruct Hargs as [[=]|Hcmd]; [done|].
  case_bool_decide; [done|].
  destruct args' as [|command args'']; [cbn in *; lia|].
  change (default EmptyString ((arg0 :: command :: args'') !! 1))
    with command.
  destruct (String.eqb_spec command "version"); [by cbn|].
  destruct (String.eqb_spec command "migrate") as [->|]; by cbn.
Qed.

(** How [Run] ends.  It panics on an empty argument list; it exits with
    status 1, after writing the usage to the standard error, when the
    command is missing; it exits with status 0, after writing the version
    to the standard output, for the command [version]; otherwise it
    returns, and with the uninstall message the plugin is unchanged. *)
Theorem Run_ends c args s :
  match result (run h (Run ParseArgs version gitSHA c args) s) with
  | Panicked => args = []
  | Exited code =>
      args !! 0 <> Some "CLI-MESSAGE-UNINSTALL" /\
      ((code = 1 /\ length args = 1 /\
        exists text,
          calls (trace (run h (Run ParseArgs version gitSHA c args) s))
          = [Stderr text])
       \/ (code = 0 /\ args !! 1 = Some "version" /\
           calls (trace (run h (Run ParseArgs version gitSHA c args) s))
           = [Stdout (version +:+ " (" +:+ gitSHA +:+ ")" +:+ newline)]))
  | Returned c' =>
      args !! 0 = Some "CLI-MESSAGE-UNINSTALL" /\ c' = c
      \/ args !! 0 <> Some "CLI-MESSAGE-UNINSTALL" /\
         2 <= length args /\ args !! 1 <> Some "version"
  end.
Proof.
  unfold Run.
  destruct args as [|arg0 args']; [done|].
  destruct (String.eqb_spec arg0 "CLI-MESSAGE-UNINSTALL") as [->|Hne];
    [by left|].
  assert (Hne' : (arg0 :: args') !! 0 <> Some "CLI-MESSAGE-UNINSTALL")
    by (cbn; congruence).
  case_bool_decide as Hlen.
  { destruct args' as [|? ?]; [|cbn in Hlen; lia].
    cbn. split; [done|]. left. eauto. }
  destruct args' as [|command args'']; [cbn in Hlen; lia|].
  change (default EmptyString ((arg0 :: command :: args'') !! 1))
    with command.
  destruct (String.eqb_spec command "version") as [->|Hv].
  { cbn. split; [done|]. by right. }
  destruct (String.eqb_spec command "migrate") as [->|Hm].
  - rewrite run_bind. cbn [result run mret prog_ret].
    right. repeat split; [done | cbn; lia | by cbn].
  - cbn. right. repeat split; [done | lia | congruence].
Qed.
End Run.

(** [Run] at work: the command [migrate] with a migrator that cannot
    create the recipient instance. *)
Lemma Run_migrate_witness :
  result (run (quiet create_fails)
            (Run ParseArgs "1.0.0" "abc123" {| err := None |}
               ["mysql-tools"; "migrate"; "db"; "small"]) [])
    = Returned
        {| err := result (run (migrator_of (quiet create_fails))
                            (Migrate ParseArgs ["db"; "small"]) []) |} /\
  omap on_migrator
    (calls (trace (run (quiet create_fails)
                     (Run ParseArgs "1.0.0" "abc123" {| err := None |}
                        ["mysql-tools"; "migrate"; "db"; "small"]) [])))
    = calls (trace (run (migrator_of (quiet create_fails))
                      (Migrate ParseArgs ["db"; "small"]) [])).
Proof.
  apply (Run_migrate ParseArgs "1.0.0" "abc123" (quiet create_fails)
           {| err := None |} "mysql-tools" ["db"; "small"] []).
  discriminate.
Defined.

(** What that run amounts to. *)
Example Run_migrate_create_fails :
  let o := run (quiet create_fails)
             (Run ParseArgs "1.0.0" "abc123" {| err := None |}
                ["mysql-tools"; "migrate"; "db"; "small"]) [] in
  result o
    = Returned {| err := Some ("error creating service instance: "
                               +:+ "quota exceeded"
                               +:+ ". Attempting to clean up service db-new") |}
  /\ omap on_migrator (calls (trace o))
    = [ CheckServiceExists "db";
        CreateAndConfigureServiceInstance "small" "db-new";
        CleanupOnError "db-new" ].
Proof. by vm_compute. Qed.

(** [Run] at work: a command it does not know. *)
Lemma Run_spares_migrator_witness :
  omap on_migrator
    (calls (trace (run (quiet create_fails)
                     (Run ParseArgs "1.0.0" "abc123" {| err := None |}
                        ["mysql-tools"; "find-bindings"]) []))) = [].
Proof.
  apply (Run_spares_migrator ParseArgs "1.0.0" "abc123" (quiet create_fails)).
  right. discriminate.
Defined.
End RunSpec.

